(** * House price demo: the schema-driven row builder of [app.py]

    A shallow embedding of the feature-row assembly of [app.py] and of its
    "Predict price" handler, with the properties the specification states
    about them.

    - Python [int] is [Z]; Python [float] is Rocq's primitive binary64
      [float], whose operations are the IEEE 754 ones Python uses.
    - The dict [data] is a [gmap string value]; the frame returned by
      [build_input_row] is kept as its single row, in column order.
    - Exceptions are values of [exn], threaded through the [result] monad. *)

From Stdlib Require Import ZArith Floats Lia.
From stdpp Require Import gmap strings list fin_maps.

#[local] Set Warnings "-inexact-float".
#[local] Open Scope string_scope.

(** ** Python values and exceptions *)

Inductive value : Type :=
  | VInt (z : Z)
  | VFloat (f : float).

(** [np.nan], the missing-value sentinel. *)
Definition np_nan : value := VFloat nan.

(** [pd.notna(v)] *)
Definition notna (v : value) : bool :=
  match v with
  | VInt _ => true
  | VFloat f => negb (is_nan f)
  end.

Inductive exn : Type :=
  | KeyError (key : string)
  | ZeroDivisionError
  | IndexError
  | PredictorError (msg : string).

Inductive result (A : Type) : Type :=
  | Ok (a : A)
  | Raise (e : exn).
Arguments Ok {A} a.
Arguments Raise {A} e.

#[global] Instance result_ret : MRet result := fun A a => Ok a.
#[global] Instance result_bind : MBind result := fun A B k m =>
  match m with
  | Ok a => k a
  | Raise e => Raise e
  end.

(** [a / b] on floats: Python raises where IEEE would return an infinity
    or a NaN. The test is the IEEE equality, so [-0.0] raises as well. *)
Definition truediv (a b : float) : result float :=
  if (b =? 0)%float then Raise ZeroDivisionError else Ok (a / b)%float.

(** ** The widgets (lines 19-48) *)

Record Widgets : Type := {
  beds : Z;
  baths : Z;
  parking : Z;
  land_size : float;
  distance_to_cbd : float;
  nearest_supermarket : float;
  nearest_train : float;
  nearest_bus : float;
  nearest_park : float;
  property_type : string;
  sale_method : string
}.

Definition property_type_options : list string :=
  ["House"; "Apartment / Unit / Flat / Studio"; "Townhouse"; "Villa"; "Land"].

Definition sale_method_options : list string :=
  ["Private treaty"; "Auction"; "Prior auction"; "Active (listed)"].

(** What the widgets guarantee and the builder relies on: each selection is
    one of the offered options, and the four amenity distances are not
    below their minimum [0.0]. *)
Definition nonneg (d : float) : Prop := (0 <=? d)%float = true.

Record widgets_ok (w : Widgets) : Prop := {
  ok_property_type : property_type w ∈ property_type_options;
  ok_sale_method : sale_method w ∈ sale_method_options;
  ok_supermarket : nonneg (nearest_supermarket w);
  ok_train : nonneg (nearest_train w);
  ok_bus : nonneg (nearest_bus w);
  ok_park : nonneg (nearest_park w)
}.

(** ** Derived fields (lines 49-55) *)

(** [int(beds + baths + parking)]: [int] of an [int] is the identity. *)
Definition rooms_total (w : Widgets) : Z :=
  (beds w + baths w + parking w)%Z.

Definition eps : float := 1e-6%float.

Definition amenity_access_index (w : Widgets) : result float :=
  a ← truediv 1 (eps + nearest_supermarket w);
  b ← truediv 1 (eps + nearest_train w);
  c ← truediv 1 (eps + nearest_bus w);
  d ← truediv 1 (eps + nearest_park w);
  mret (a + b + c + d)%float.

(** ** The mapping tables (lines 58-70) *)

Definition PT_COLS : list (string * string) :=
  [ ("House", "property_type_house");
    ("Apartment / Unit / Flat / Studio", "property_type_apartment_unit_flat_studio");
    ("Townhouse", "property_type_townhouse");
    ("Villa", "property_type_villa");
    ("Land", "property_type_land") ].

Definition SM_COLS : list (string * string) :=
  [ ("Private treaty", "sale_method_private_treaty");
    ("Auction", "sale_method_auction");
    ("Prior auction", "sale_method_prior_auction");
    ("Active (listed)", "sale_method_active") ].

(** [table.values()] *)
Definition values (table : list (string * string)) : list string :=
  table.*2.

(** [table[key]] *)
Fixpoint getitem (table : list (string * string)) (key : string) : result string :=
  match table with
  | [] => Raise (KeyError key)
  | (k, v) :: rest => if decide (k = key) then Ok v else getitem rest key
  end.

(** ** The builder (lines 72-108) *)

Definition put_if_present (d : gmap string value) (name : string) (v : value)
  : gmap string value :=
  match d !! name with
  | Some _ => <[name := v]> d
  | None => d
  end.

(** [for col in cols: put_if_present(d, col, 0)] *)
Definition zero_out (d : gmap string value) (cols : list string)
  : gmap string value :=
  foldl (fun d col => put_if_present d col (VInt 0)) d cols.

(** [{c: np.nan for c in FEATURES}] *)
Definition all_nan (FEATURES : list string) : gmap string value :=
  foldl (fun d c => <[c := np_nan]> d) ∅ FEATURES.

(** A row of a frame: its cells with their column names, in column order. *)
Definition row : Type := list (string * value).

(** [pd.DataFrame([data], columns=columns)], kept as its only row: one cell
    per entry of [columns], in that order, read from the record and NaN
    where the record has no such key. *)
Definition DataFrame1 (data : gmap string value) (columns : list string) : row :=
  (fun c => (c, default np_nan (data !! c))) <$> columns.

(** The cell of a row under a column name (the first one, as the names of
    a schema are unique). *)
Fixpoint row_get (r : row) (c : string) : option value :=
  match r with
  | [] => None
  | (k, v) :: rest => if decide (k = c) then Some v else row_get rest c
  end.

(** [build_input_row()], its globals made arguments: the schema
    [FEATURES], the widget values, and the two derived values. *)
Definition build_input_row (FEATURES : list string) (w : Widgets)
    (rooms_total : Z) (amenity_access_index : float) : result row :=
  let data := all_nan FEATURES in
  let data := put_if_present data "beds" (VInt (beds w)) in
  let data := put_if_present data "baths" (VInt (baths w)) in
  let data := put_if_present data "parking" (VInt (parking w)) in
  let data := put_if_present data "land_size" (VFloat (land_size w)) in
  let data := put_if_present data "distance_to_cbd" (VFloat (distance_to_cbd w)) in
  let data := put_if_present data "rooms_total" (VInt rooms_total) in
  let data := put_if_present data "nearest_supermarket" (VFloat (nearest_supermarket w)) in
  let data := put_if_present data "nearest_train" (VFloat (nearest_train w)) in
  let data := put_if_present data "nearest_bus" (VFloat (nearest_bus w)) in
  let data := put_if_present data "nearest_park" (VFloat (nearest_park w)) in
  let data := put_if_present data "amenity_access_index" (VFloat amenity_access_index) in
  let data := zero_out data (values PT_COLS) in
  sel_pt_col ← getitem PT_COLS (property_type w);
  let data := put_if_present data sel_pt_col (VInt 1) in
  let data := zero_out data (values SM_COLS) in
  sel_sm_col ← getitem SM_COLS (sale_method w);
  let data := put_if_present data sel_sm_col (VInt 1) in
  mret (DataFrame1 data FEATURES).

(** The script from the widget values to the row: the module-level
    computation of the derived fields, then [build_input_row]. *)
Definition build_row (FEATURES : list string) (w : Widgets) : result row :=
  index ← amenity_access_index w;
  build_input_row FEATURES w (rooms_total w) index.

(** ** The "Predict price" handler (lines 112-119) *)

Inductive element : Type :=
  | Success (body : string)
  | Table (cells : row).

(** What the page shows, and the calls the predictor has received. *)
Record page : Type := {
  rendered : list element;
  predict_calls : list row
}.

Definition ui (A : Type) : Type := page -> result A * page.

#[global] Instance ui_ret : MRet ui := fun A a p => (Ok a, p).
#[global] Instance ui_bind : MBind ui := fun A B k m p =>
  match m p with
  | (Ok a, p') => k a p'
  | (Raise e, p') => (Raise e, p')
  end.

Definition lift {A} (r : result A) : ui A := fun p => (r, p).

Definition render (e : element) : ui unit := fun p =>
  (Ok tt, {| rendered := rendered p ++ [e]; predict_calls := predict_calls p |}).

(** [ys[0]] *)
Definition first (ys : list float) : result float :=
  match ys with
  | [] => Raise IndexError
  | y :: _ => Ok y
  end.

Section Handler.
(** [pipe.predict], the opaque fitted pipeline; the rendering of
    [f"{yhat:,.0f}"]; and the fields pandas keeps for the table,
    [{k: v for k, v in X_row.iloc[0].items() if pd.notna(v)}]: what the
    Series view of the row holds (its common dtype, one entry per name) is
    left to pandas, as a function of the frame. *)
Variable predict : row -> result (list float).
Variable format_price : float -> string.
Variable non_nan_fields : row -> row.

Definition pipe_predict (X : row) : ui (list float) := fun p =>
  (predict X, {| rendered := rendered p; predict_calls := predict_calls p ++ [X] |}).

(** The body of [if st.button("Predict price"):], with the globals
    [build_input_row] reads made arguments. *)
Definition on_predict (FEATURES : list string) (w : Widgets)
    (rooms_total : Z) (amenity_access_index : float) (clicked : bool)
  : ui unit :=
  if clicked then
    X_row ← lift (build_input_row FEATURES w rooms_total amenity_access_index);
    ys ← pipe_predict X_row;
    yhat ← lift (first ys);
    _ ← render (Success ("Estimated price: **A$" ++ format_price yhat ++ "**"));
    render (Table (non_nan_fields X_row))
  else mret tt.
End Handler.

(** ** A concrete request: the default widget values *)

Definition demo_widgets : Widgets := {|
  beds := 3; baths := 2; parking := 1;
  land_size := 400; distance_to_cbd := 10;
  nearest_supermarket := 0.8; nearest_train := 1.2;
  nearest_bus := 0.3; nearest_park := 0.5;
  property_type := "House"; sale_method := "Auction"
|}.

Definition demo_schema : list string :=
  ["beds"; "baths"; "parking"; "rooms_total"; "property_type_house";
   "property_type_apartment_unit_flat_studio"; "sale_method_auction"].

(** ** Vocabulary of the properties *)

(** A strictly positive binary64 value, in its specification form. *)
Definition SFpos (x : spec_float) : Prop := SFltb (S754_zero false) x = true.

(** The columns a population rule of [build_input_row] names: the raw
    scalar fields and the two derived fields, then the two one-hot
    families. *)
Definition scalar_cols : list string :=
  ["beds"; "baths"; "parking"; "land_size"; "distance_to_cbd"; "rooms_total";
   "nearest_supermarket"; "nearest_train"; "nearest_bus"; "nearest_park";
   "amenity_access_index"].

Definition rule_cols : list string :=
  scalar_cols ++ values PT_COLS ++ values SM_COLS.

(** The cell [build_input_row] leaves under column [c] of the schema, given
    the two selected one-hot columns: the last rule that names [c] wins.
    First the rules of the scalar fields, then those of the families. *)
Definition scalar_cell (w : Widgets) (rooms_total : Z)
    (amenity_access_index : float) (c : string) : value :=
  if decide (c = "amenity_access_index") then VFloat amenity_access_index else
  if decide (c = "nearest_park") then VFloat (nearest_park w) else
  if decide (c = "nearest_bus") then VFloat (nearest_bus w) else
  if decide (c = "nearest_train") then VFloat (nearest_train w) else
  if decide (c = "nearest_supermarket") then VFloat (nearest_supermarket w) else
  if decide (c = "rooms_total") then VInt rooms_total else
  if decide (c = "distance_to_cbd") then VFloat (distance_to_cbd w) else
  if decide (c = "land_size") then VFloat (land_size w) else
  if decide (c = "parking") then VInt (parking w) else
  if decide (c = "baths") then VInt (baths w) else
  if decide (c = "beds") then VInt (beds w) else
  np_nan.

Definition cell (w : Widgets) (rooms_total : Z) (amenity_access_index : float)
    (sel_pt_col sel_sm_col : string) (c : string) : value :=
  if decide (c = sel_sm_col) then VInt 1 else
  if decide (c ∈ values SM_COLS) then VInt 0 else
  if decide (c = sel_pt_col) then VInt 1 else
  if decide (c ∈ values PT_COLS) then VInt 0 else
  scalar_cell w rooms_total amenity_access_index c.

(** The sum the index is specified as, in binary64 and in source order. *)
Definition inverse_distance_sum (ds dt db dp : float) : float :=
  (1 / (1e-6 + ds) + 1 / (1e-6 + dt) + 1 / (1e-6 + db) + 1 / (1e-6 + dp))%float.

(** "Exactly one column of the family present in the schema is 1 and every
    other one present is 0." *)
Definition exactly_one_hot (family S : list string) (r : row) : Prop :=
  exists c, c ∈ family /\ c ∈ S /\ row_get r c = Some (VInt 1) /\
    forall c', c' ∈ family -> c' ∈ S -> c' <> c -> row_get r c' = Some (VInt 0).

(** The same widget values with another selection. *)
Definition with_property_type (label : string) (w : Widgets) : Widgets :=
  {| beds := beds w; baths := baths w; parking := parking w;
     land_size := land_size w; distance_to_cbd := distance_to_cbd w;
     nearest_supermarket := nearest_supermarket w;
     nearest_train := nearest_train w; nearest_bus := nearest_bus w;
     nearest_park := nearest_park w;
     property_type := label; sale_method := sale_method w |}.

Definition with_sale_method (label : string) (w : Widgets) : Widgets :=
  {| beds := beds w; baths := baths w; parking := parking w;
     land_size := land_size w; distance_to_cbd := distance_to_cbd w;
     nearest_supermarket := nearest_supermarket w;
     nearest_train := nearest_train w; nearest_bus := nearest_bus w;
     nearest_park := nearest_park w;
     property_type := property_type w; sale_method := label |}.

(** The two one-hot families, each with its mapping table and its
    selection widget. *)
Inductive family : Type := PropertyType | SaleMethod.

Definition table (f : family) : list (string * string) :=
  match f with
  | PropertyType => PT_COLS
  | SaleMethod => SM_COLS
  end.

Definition selection (f : family) (w : Widgets) : string :=
  match f with
  | PropertyType => property_type w
  | SaleMethod => sale_method w
  end.

Definition with_selection (f : family) (label : string) (w : Widgets) : Widgets :=
  match f with
  | PropertyType => with_property_type label w
  | SaleMethod => with_sale_method label w
  end.

Definition other_family (f : family) : family :=
  match f with
  | PropertyType => SaleMethod
  | SaleMethod => PropertyType
  end.

(** A predictor whose artifact rejects every row. *)
Definition strict_predictor (X : row) : result (list float) :=
  Raise (PredictorError "columns are missing").

(** A binary64 value that is not below zero, in its specification form
    (an infinity and either zero included, NaN excluded). *)
Definition SFnonneg (x : spec_float) : Prop := SFleb (S754_zero false) x = true.

(** The two raw float fields the index does not read are not below the
    minimum [0.0] of their widgets either. *)
Definition areas_ok (w : Widgets) : Prop :=
  nonneg (land_size w) /\ nonneg (distance_to_cbd w).

(** * Proof automation *)

(** Closes a decidable goal on concrete data by evaluation. *)
Ltac by_evaluation := apply (bool_decide_unpack _); vm_compute; exact I.

(** Splits a membership [H : x ∈ [a; b; ...]] into its cases. *)
Ltac list_cases H :=
  repeat (apply elem_of_cons in H as [-> | H]); [.. | by apply elem_of_nil in H].

(** * Binary64 addition of positive values

    The sum of a positive and a non-negative binary64 value is positive:
    rounding to nearest never takes a sum of valid operands down to zero. *)

Section Binary64.
Local Open Scope Z_scope.

Lemma digits2_pos_lower (m : positive) :
  2 ^ (Zpos (digits2_pos m) - 1) <= Zpos m.
Proof.
  induction m as [p IH | p IH |]; simpl digits2_pos.
  - rewrite Pos2Z.inj_succ.
    replace (Z.succ (Zpos (digits2_pos p)) - 1)
      with (Z.succ (Zpos (digits2_pos p) - 1)) by lia.
    rewrite Z.pow_succ_r by lia. lia.
  - rewrite Pos2Z.inj_succ.
    replace (Z.succ (Zpos (digits2_pos p)) - 1)
      with (Z.succ (Zpos (digits2_pos p) - 1)) by lia.
    rewrite Z.pow_succ_r by lia. lia.
  - reflexivity.
Qed.

Lemma shr_1_m (mrs : shr_record) :
  0 <= shr_m mrs -> shr_m (shr_1 mrs) = shr_m mrs / 2.
Proof.
  destruct mrs as [m r s]; simpl. intros Hm.
  destruct m as [| [p | p |] | p]; simpl shr_m; try lia.
  - reflexivity.
  - apply Z.div_unique with (r := 1); lia.
  - apply Z.div_unique with (r := 0); lia.
  - reflexivity.
Qed.

Lemma pow2_xI (n : positive) : 2 ^ Zpos n~1 = 2 * 2 ^ Zpos n * 2 ^ Zpos n.
Proof.
  replace (Zpos n~1) with (1 + Zpos n + Zpos n) by lia.
  rewrite !Z.pow_add_r by lia. reflexivity.
Qed.

Lemma pow2_xO (n : positive) : 2 ^ Zpos n~0 = 2 ^ Zpos n * 2 ^ Zpos n.
Proof.
  replace (Zpos n~0) with (Zpos n + Zpos n) by lia.
  rewrite !Z.pow_add_r by lia. reflexivity.
Qed.

(** [n] one-bit right shifts divide the mantissa by [2 ^ n]. *)
Lemma iter_shr_1_m (n : positive) :
  forall mrs, 0 <= shr_m mrs ->
    shr_m (SpecFloat.iter_pos shr_1 n mrs) = shr_m mrs / 2 ^ Zpos n.
Proof.
  induction n as [n IH | n IH |]; intros mrs Hm; cbn [SpecFloat.iter_pos].
  - assert (H1 : 0 <= shr_m (shr_1 mrs)).
    { rewrite shr_1_m by done. apply Z.div_pos; lia. }
    assert (H2 : 0 <= shr_m (SpecFloat.iter_pos shr_1 n (shr_1 mrs))).
    { rewrite IH by done. apply Z.div_pos; lia. }
    rewrite IH, IH, shr_1_m by done.
    rewrite !Z.div_div by lia.
    rewrite pow2_xI; f_equal; ring.
  - assert (H2 : 0 <= shr_m (SpecFloat.iter_pos shr_1 n mrs)).
    { rewrite IH by done. apply Z.div_pos; lia. }
    rewrite IH, IH by done.
    rewrite !Z.div_div by lia.
    rewrite pow2_xO; f_equal; ring.
  - rewrite shr_1_m by done. reflexivity.
Qed.

(** Above the least exponent, the shift to the target exponent drops
    fewer bits than the mantissa has. *)
Lemma shr_fexp_pos (m : positive) (e : Z) (l : location) :
  emin <= e ->
  exists mrs e', shr_fexp prec emax (Zpos m) e l = (mrs, e')
    /\ 0 < shr_m mrs /\ emin <= e'.
Proof.
  intros He. unfold shr_fexp, shr.
  assert (Hm : shr_m (shr_record_of_loc (Zpos m) l) = Zpos m).
  { by destruct l as [| []]. }
  destruct (fexp prec emax (Zdigits2 (Zpos m) + e) - e) as [| p | p] eqn:Hn;
    [ eexists _, _; split; [done | rewrite Hm; lia]
    | | eexists _, _; split; [done | rewrite Hm; lia] ].
  eexists _, _. split; [done |].
  assert (Hp : Zpos p <= Zpos (digits2_pos m) - 1).
  { revert Hn He. unfold fexp, SpecFloat.emin, prec, emax. simpl Zdigits2. lia. }
  split; [| lia].
  rewrite iter_shr_1_m by (rewrite Hm; lia). rewrite Hm.
  apply Z.div_str_pos. split; [lia |].
  etrans; [| apply digits2_pos_lower].
  apply Z.pow_le_mono_r; lia.
Qed.

Lemma binary_round_aux_pos (m : positive) (e : Z) (l : location) :
  emin <= e -> SFpos (binary_round_aux prec emax false (Zpos m) e l).
Proof.
  intros He. unfold binary_round_aux.
  destruct (shr_fexp_pos m e l He) as (mrs' & e' & -> & Hm' & He').
  assert (exists q, round_nearest_even (shr_m mrs') (loc_of_shr_record mrs') = Zpos q)
    as [q ->].
  { destruct (shr_m mrs') as [| q | q]; [lia | | lia].
    unfold round_nearest_even.
    destruct (loc_of_shr_record mrs') as [| []]; try (by eexists).
    destruct (Z.even (Zpos q)); by eexists. }
  destruct (shr_fexp_pos q e' loc_Exact He') as (mrs'' & e'' & -> & Hm'' & He'').
  destruct (shr_m mrs'') as [| r | r]; [lia | | lia].
  by destruct (e'' <=? emax - prec).
Qed.

Lemma binary_round_pos (m : positive) (e : Z) :
  emin <= e -> SFpos (binary_round prec emax false m e).
Proof.
  intros He. unfold binary_round.
  destruct (shl_align m e _) as [mz ez] eqn:Hal.
  apply binary_round_aux_pos.
  revert Hal. unfold shl_align.
  destruct (_ - e) eqn:Hd; intros [= <- <-]; try done.
  unfold fexp, SpecFloat.emin. lia.
Qed.

Lemma bounded_emin (m : positive) (e : Z) :
  bounded prec emax m e = true -> emin <= e.
Proof.
  unfold bounded, canonical_mantissa, fexp.
  intros [H%Z.eqb_eq _]%andb_true_iff. lia.
Qed.

Lemma SFadd_pos (x y : spec_float) :
  valid_binary x = true -> valid_binary y = true ->
  SFpos x -> SFleb (S754_zero false) y = true -> SFpos (SF64add x y).
Proof.
  unfold SFpos, SFltb, SFleb, SF64add.
  destruct x as [sx | [] | | [] mx ex]; try done;
    destruct y as [sy | [] | | [] my ey]; try done.
  intros Hx%bounded_emin Hy%bounded_emin _ _.
  unfold SFadd, cond_Zopp. rewrite <- Pos2Z.inj_add. unfold binary_normalize.
  apply binary_round_pos. lia.
Qed.
End Binary64.

Lemma add_pos (x d : float) :
  (0 <? x)%float = true -> (0 <=? d)%float = true -> (0 <? x + d)%float = true.
Proof.
  rewrite !FloatAxioms.ltb_spec, FloatAxioms.leb_spec, FloatAxioms.add_spec.
  change (Prim2SF 0) with (S754_zero false).
  apply SFadd_pos; apply Prim2SF_valid.
Qed.

Lemma pos_nonzero (x : float) : (0 <? x)%float = true -> (x =? 0)%float = false.
Proof.
  rewrite FloatAxioms.ltb_spec, FloatAxioms.eqb_spec.
  change (Prim2SF 0) with (S754_zero false).
  unfold SFltb, SFeqb.
  by destruct (Prim2SF x) as [sx | [] | | [] mx ex].
Qed.

Lemma denominator_pos (d : float) : nonneg d -> (0 <? eps + d)%float = true.
Proof. intros Hd. by apply add_pos. Qed.

Lemma truediv_denominator (d : float) :
  nonneg d -> truediv 1 (eps + d) = Ok (1 / (eps + d))%float.
Proof.
  intros Hd. unfold truediv.
  by rewrite (pos_nonzero _ (denominator_pos d Hd)).
Qed.

Lemma amenity_access_index_ok (w : Widgets) :
  nonneg (nearest_supermarket w) -> nonneg (nearest_train w) ->
  nonneg (nearest_bus w) -> nonneg (nearest_park w) ->
  amenity_access_index w
  = Ok (inverse_distance_sum (nearest_supermarket w) (nearest_train w)
          (nearest_bus w) (nearest_park w)).
Proof.
  intros Hs Ht Hb Hp. unfold amenity_access_index.
  rewrite !truediv_denominator by done. reflexivity.
Qed.

(** * The builder *)

(** ** The dict operations *)

Lemma lookup_put_if_present (d : gmap string value) (name : string) (v : value)
    (k : string) :
  put_if_present d name v !! k
  = (fun x => if decide (k = name) then v else x) <$> d !! k.
Proof.
  unfold put_if_present.
  destruct (decide (k = name)) as [-> | Hne].
  - destruct (d !! name) as [x |] eqn:Hd.
    + by rewrite lookup_insert_eq.
    + by rewrite Hd.
  - destruct (d !! name) as [x |] eqn:Hd.
    + rewrite lookup_insert_ne by done. by destruct (d !! k).
    + by destruct (d !! k).
Qed.

Lemma dom_put_if_present (d : gmap string value) (name : string) (v : value) :
  dom (put_if_present d name v) = dom d.
Proof.
  apply set_eq. intros k.
  rewrite !elem_of_dom, lookup_put_if_present.
  apply fmap_is_Some.
Qed.

Lemma put_if_present_absent (d : gmap string value) (name : string) (v : value) :
  d !! name = None -> put_if_present d name v = d.
Proof. intros Hd. unfold put_if_present. by rewrite Hd. Qed.

Lemma lookup_zero_out (cols : list string) :
  forall (d : gmap string value) (k : string),
    zero_out d cols !! k
    = (fun x => if decide (k ∈ cols) then VInt 0 else x) <$> d !! k.
Proof.
  unfold zero_out.
  induction cols as [| col cols IH]; intros d k; cbn [foldl].
  - destruct (d !! k); cbn [fmap option_fmap option_map]; [| done].
    rewrite decide_False; [done | apply not_elem_of_nil].
  - rewrite IH, lookup_put_if_present.
    destruct (d !! k) as [x |]; cbn [fmap option_fmap option_map]; [| done].
    f_equal.
    destruct (decide (k = col)) as [-> | Hne].
    + rewrite (decide_True (P := col ∈ col :: cols)) by left.
      by destruct (decide (col ∈ cols)).
    + destruct (decide (k ∈ cols)) as [Hin | Hin].
      * by rewrite decide_True by by right.
      * rewrite decide_False; [done |].
        by intros [? | ?]%elem_of_cons.
Qed.

Lemma lookup_fill_nan (FEATURES : list string) :
  forall (d : gmap string value) (k : string),
    foldl (fun d c => <[c := np_nan]> d) d FEATURES !! k
    = if decide (k ∈ FEATURES) then Some np_nan else d !! k.
Proof.
  induction FEATURES as [| c cs IH]; intros d k; cbn [foldl].
  - rewrite decide_False; [done | apply not_elem_of_nil].
  - rewrite IH.
    destruct (decide (k ∈ cs)) as [Hin | Hin].
    + by rewrite decide_True by by right.
    + destruct (decide (k = c)) as [-> | Hne].
      * rewrite decide_True by left. apply lookup_insert_eq.
      * rewrite lookup_insert_ne by done.
        rewrite decide_False; [done |].
        by intros [? | ?]%elem_of_cons.
Qed.

Lemma lookup_all_nan (FEATURES : list string) (k : string) :
  all_nan FEATURES !! k = if decide (k ∈ FEATURES) then Some np_nan else None.
Proof. unfold all_nan. by rewrite lookup_fill_nan, lookup_empty. Qed.

(** ** The mapping tables *)

Lemma getitem_Ok (table : list (string * string)) (key v : string) :
  getitem table key = Ok v -> v ∈ values table.
Proof.
  unfold values.
  induction table as [| [k x] rest IH]; simpl; [done |].
  destruct (decide (k = key)).
  - intros [= ->]. left.
  - intros H. right. by apply IH.
Qed.

Lemma getitem_total (table : list (string * string)) (key : string) :
  key ∈ table.*1 -> exists v, getitem table key = Ok v.
Proof.
  induction table as [| [k x] rest IH]; simpl.
  - by intros ?%elem_of_nil.
  - intros Hin. destruct (decide (k = key)); [by eexists |].
    apply IH. by apply elem_of_cons in Hin as [? | ?].
Qed.

Lemma selected_columns (w : Widgets) :
  widgets_ok w ->
  exists pt sm,
    getitem PT_COLS (property_type w) = Ok pt /\ pt ∈ values PT_COLS /\
    getitem SM_COLS (sale_method w) = Ok sm /\ sm ∈ values SM_COLS.
Proof.
  intros Hw.
  destruct (getitem_total PT_COLS (property_type w)) as [pt Hpt];
    [apply (ok_property_type w Hw) |].
  destruct (getitem_total SM_COLS (sale_method w)) as [sm Hsm];
    [apply (ok_sale_method w Hw) |].
  exists pt, sm. repeat split; try done; by eapply getitem_Ok.
Qed.

(** ** Rows *)

Lemma row_get_fmap (f : string -> value) (S : list string) (c : string) :
  row_get ((fun k => (k, f k)) <$> S) c
  = if decide (c ∈ S) then Some (f c) else None.
Proof.
  induction S as [| k ks IH]; cbn [fmap list_fmap row_get].
  - rewrite decide_False; [done | apply not_elem_of_nil].
  - destruct (decide (k = c)) as [-> | Hne].
    + by rewrite decide_True by left.
    + rewrite IH. destruct (decide (c ∈ ks)) as [Hin | Hin].
      * by rewrite decide_True by by right.
      * rewrite decide_False; [done |].
        intros [? | ?]%elem_of_cons; congruence.
Qed.

Lemma fst_fmap_pair (f : string -> value) (S : list string) :
  ((fun k => (k, f k)) <$> S).*1 = S.
Proof.
  induction S as [| k ks IH]; [done |].
  cbn [fmap list_fmap fst]. f_equal. exact IH.
Qed.

(** ** What [build_input_row] returns *)

Lemma build_input_row_cells (S : list string) (w : Widgets) (rt : Z) (index : float)
    (pt sm : string) :
  getitem PT_COLS (property_type w) = Ok pt ->
  getitem SM_COLS (sale_method w) = Ok sm ->
  build_input_row S w rt index
  = Ok ((fun c => (c, cell w rt index pt sm c)) <$> S).
Proof.
  intros Hpt Hsm. unfold build_input_row.
  cbv zeta. rewrite Hpt. cbn [mbind result_bind]. rewrite Hsm.
  cbn [mbind result_bind mret result_ret]. f_equal. unfold DataFrame1.
  apply list_fmap_ext. intros i c Hc. f_equal.
  rewrite !lookup_put_if_present, lookup_zero_out, !lookup_put_if_present,
    lookup_zero_out, !lookup_put_if_present, lookup_all_nan.
  rewrite decide_True by (by eapply list_elem_of_lookup_2).
  reflexivity.
Qed.

Lemma build_row_cells (S : list string) (w : Widgets) :
  widgets_ok w ->
  exists pt sm,
    getitem PT_COLS (property_type w) = Ok pt /\ pt ∈ values PT_COLS /\
    getitem SM_COLS (sale_method w) = Ok sm /\ sm ∈ values SM_COLS /\
    build_row S w
    = Ok ((fun c => (c, cell w (rooms_total w)
                          (inverse_distance_sum (nearest_supermarket w)
                             (nearest_train w) (nearest_bus w) (nearest_park w))
                          pt sm c)) <$> S).
Proof.
  intros Hw.
  destruct (selected_columns w Hw) as (pt & sm & Hpt & Hpt' & Hsm & Hsm').
  exists pt, sm. repeat split; try done.
  unfold build_row.
  rewrite amenity_access_index_ok by apply Hw.
  cbn [mbind result_bind]. by apply build_input_row_cells.
Qed.

(** ** The cells of the row *)

Lemma families_disjoint (c : string) :
  c ∈ values PT_COLS -> c ∉ values SM_COLS.
Proof. intros Hc. list_cases Hc; by_evaluation. Qed.

Lemma cell_sale_method (w : Widgets) (rt : Z) (index : float) (pt sm c : string) :
  c ∈ values SM_COLS ->
  cell w rt index pt sm c = VInt (if decide (c = sm) then 1 else 0).
Proof.
  intros Hc. unfold cell.
  destruct (decide (c = sm)); [done |]. by rewrite decide_True.
Qed.

Lemma cell_property_type (w : Widgets) (rt : Z) (index : float) (pt sm c : string) :
  sm ∈ values SM_COLS -> c ∈ values PT_COLS ->
  cell w rt index pt sm c = VInt (if decide (c = pt) then 1 else 0).
Proof.
  intros Hsm Hc. unfold cell.
  pose proof (families_disjoint c Hc) as Hd.
  rewrite decide_False by (by intros ->).
  rewrite decide_False by done.
  destruct (decide (c = pt)); [done |]. by rewrite decide_True.
Qed.

Lemma cell_outside_families (w : Widgets) (rt : Z) (index : float)
    (pt sm c : string) :
  pt ∈ values PT_COLS -> sm ∈ values SM_COLS ->
  c ∉ values PT_COLS -> c ∉ values SM_COLS ->
  cell w rt index pt sm c = scalar_cell w rt index c.
Proof.
  intros Hpt Hsm Hc1 Hc2. unfold cell.
  rewrite decide_False by (by intros ->).
  rewrite decide_False by done.
  rewrite decide_False by (by intros ->).
  by rewrite decide_False by done.
Qed.

Lemma cell_unset (w : Widgets) (rt : Z) (index : float) (pt sm c : string) :
  pt ∈ values PT_COLS -> sm ∈ values SM_COLS -> c ∉ rule_cols ->
  cell w rt index pt sm c = np_nan.
Proof.
  intros Hpt Hsm Hc. unfold rule_cols in Hc.
  apply not_elem_of_app in Hc as [Hscalar Hc].
  apply not_elem_of_app in Hc as [Hc1 Hc2].
  rewrite cell_outside_families by done.
  unfold scalar_cell.
  repeat (case_decide as Heq;
    [exfalso; apply Hscalar; rewrite Heq; by_evaluation | clear Heq]).
  reflexivity.
Qed.

(** A cell that holds the integer 1 is a selected one-hot column or a
    count that is 1. *)
Lemma cell_one (w : Widgets) (rt : Z) (index : float) (pt sm c : string) :
  cell w rt index pt sm c = VInt 1 ->
  c = sm \/ c = pt \/
  (c = "beds" /\ beds w = 1%Z) \/ (c = "baths" /\ baths w = 1%Z) \/
  (c = "parking" /\ parking w = 1%Z) \/ (c = "rooms_total" /\ rt = 1%Z).
Proof.
  unfold cell, scalar_cell.
  repeat case_decide; try done; intros Hone; simplify_eq; naive_solver.
Qed.

(** Outside a family's columns the cell does not depend on the column
    selected in that family. *)
Lemma cell_frame_property_type (w : Widgets) (rt : Z) (index : float)
    (pt pt' sm c : string) :
  pt ∈ values PT_COLS -> pt' ∈ values PT_COLS -> c ∉ values PT_COLS ->
  cell w rt index pt sm c = cell w rt index pt' sm c.
Proof.
  intros Hpt Hpt' Hc. unfold cell.
  rewrite (decide_False (P := c = pt)) by (by intros ->).
  by rewrite (decide_False (P := c = pt')) by (by intros ->).
Qed.

Lemma cell_frame_sale_method (w : Widgets) (rt : Z) (index : float)
    (pt sm sm' c : string) :
  sm ∈ values SM_COLS -> sm' ∈ values SM_COLS -> c ∉ values SM_COLS ->
  cell w rt index pt sm c = cell w rt index pt sm' c.
Proof.
  intros Hsm Hsm' Hc. unfold cell.
  rewrite (decide_False (P := c = sm)) by (by intros ->).
  rewrite (decide_False (P := c = sm')) by (by intros ->).
  by rewrite !(decide_False (P := c ∈ values SM_COLS)) by done.
Qed.

(** The row of the same request with another selection. *)
Lemma build_row_with_property_type (S : list string) (w : Widgets)
    (label pt' sm : string) :
  widgets_ok w -> getitem PT_COLS label = Ok pt' ->
  getitem SM_COLS (sale_method w) = Ok sm ->
  build_row S (with_property_type label w)
  = Ok ((fun c => (c, cell w (rooms_total w)
                        (inverse_distance_sum (nearest_supermarket w)
                           (nearest_train w) (nearest_bus w) (nearest_park w))
                        pt' sm c)) <$> S).
Proof.
  intros Hw Hpt Hsm. unfold build_row.
  rewrite amenity_access_index_ok by apply Hw.
  cbn [mbind result_bind].
  by rewrite (build_input_row_cells S _ _ _ pt' sm).
Qed.

Lemma build_row_with_sale_method (S : list string) (w : Widgets)
    (label pt sm' : string) :
  widgets_ok w -> getitem PT_COLS (property_type w) = Ok pt ->
  getitem SM_COLS label = Ok sm' ->
  build_row S (with_sale_method label w)
  = Ok ((fun c => (c, cell w (rooms_total w)
                        (inverse_distance_sum (nearest_supermarket w)
                           (nearest_train w) (nearest_bus w) (nearest_park w))
                        pt sm' c)) <$> S).
Proof.
  intros Hw Hpt Hsm. unfold build_row.
  rewrite amenity_access_index_ok by apply Hw.
  cbn [mbind result_bind].
  by rewrite (build_input_row_cells S _ _ _ pt sm').
Qed.

Lemma demo_widgets_ok : widgets_ok demo_widgets.
Proof. split; try by_evaluation; reflexivity. Qed.

(** ** The builder on concrete requests *)

Example demo_row :
  build_row ["amenity_access_index"; "suburb_median"; "property_type_villa"]
    demo_widgets
  = Ok [("amenity_access_index", VFloat 7.4166492986586796);
        ("suburb_median", np_nan); ("property_type_villa", VInt 0)].
Proof. by vm_compute. Qed.

(** Outside the bounds of the widgets the script can raise: a distance of
    [-1e-6] makes a denominator zero. *)
Example negative_distance_raises :
  build_row demo_schema
    {| beds := 3; baths := 2; parking := 1;
       land_size := 400; distance_to_cbd := 10;
       nearest_supermarket := (-1e-6)%float; nearest_train := 1.2;
       nearest_bus := 0.3; nearest_park := 0.5;
       property_type := "House"; sale_method := "Auction" |}
  = Raise ZeroDivisionError.
Proof. by vm_compute. Qed.

(** A label outside the mapping table raises as the dict lookup does. *)
Example unknown_label_raises :
  build_row demo_schema (with_property_type "Castle" demo_widgets)
  = Raise (KeyError "Castle").
Proof. by vm_compute. Qed.

(** * The claims *)

(** C1: for every schema [S] and all widget values, [build_row S w] returns
    a row whose keys are exactly the names of [S], enumerated in the order
    of [S]: no key is missing and none is extra. *)
Theorem build_row_keys (S : list string) (w : Widgets) :
  widgets_ok w ->
  exists r, build_row S w = Ok r /\ r.*1 = S /\
    forall c, is_Some (row_get r c) <-> c ∈ S.
Proof.
  intros Hw.
  destruct (build_row_cells S w Hw) as (pt & sm & _ & _ & _ & _ & ->).
  eexists. split; [done |]. split; [apply fst_fmap_pair |].
  intros c. rewrite row_get_fmap.
  destruct (decide (c ∈ S)); split; try done.
Qed.

Lemma build_row_keys_witness :
  widgets_ok demo_widgets /\
  exists r, build_row demo_schema demo_widgets = Ok r /\ r.*1 = demo_schema /\
    forall c, is_Some (row_get r c) <-> c ∈ demo_schema.
Proof.
  split; [exact demo_widgets_ok |].
  apply (build_row_keys demo_schema demo_widgets). exact demo_widgets_ok.
Defined.

(** C2, as stated, fails: with the schema [["property_type_villa"]] and the
    selection "House", the only column of the family in the schema is 0, so
    no column of the family holds 1. *)
Lemma one_hot_counterexample :
  widgets_ok demo_widgets /\
  build_row ["property_type_villa"] demo_widgets
    = Ok [("property_type_villa", VInt 0)] /\
  ~ exactly_one_hot (values PT_COLS) ["property_type_villa"]
      [("property_type_villa", VInt 0)].
Proof.
  split; [exact demo_widgets_ok |]. split; [by vm_compute |].
  intros (c & _ & Hc & Hone & _).
  apply list_elem_of_singleton in Hc as ->.
  vm_compute in Hone. discriminate Hone.
Qed.

(** C2, amended: in the row [build_row S w] returns, every column of the
    property-type family (the five columns of [PT_COLS]) present in [S]
    holds 1 if it is the column mapped from the selected label and 0
    otherwise; so the selected column holds 1 when [S] has it, and no
    column of the family holds 1 when [S] does not. The same for the
    sale-method family. *)
Theorem one_hot_families (S : list string) (w : Widgets) :
  widgets_ok w ->
  exists r pt sm,
    build_row S w = Ok r /\
    getitem PT_COLS (property_type w) = Ok pt /\
    getitem SM_COLS (sale_method w) = Ok sm /\
    (forall c, c ∈ values PT_COLS -> c ∈ S ->
       row_get r c = Some (VInt (if decide (c = pt) then 1 else 0))) /\
    (forall c, c ∈ values SM_COLS -> c ∈ S ->
       row_get r c = Some (VInt (if decide (c = sm) then 1 else 0))).
Proof.
  intros Hw.
  destruct (build_row_cells S w Hw) as (pt & sm & Hpt & Hpt' & Hsm & Hsm' & ->).
  eexists _, pt, sm. repeat split; try done.
  - intros c Hc HS. rewrite row_get_fmap, decide_True by done.
    by rewrite cell_property_type.
  - intros c Hc HS. rewrite row_get_fmap, decide_True by done.
    by rewrite cell_sale_method.
Qed.

Lemma one_hot_families_witness :
  widgets_ok demo_widgets /\
  exists r pt sm,
    build_row demo_schema demo_widgets = Ok r /\
    getitem PT_COLS (property_type demo_widgets) = Ok pt /\
    getitem SM_COLS (sale_method demo_widgets) = Ok sm /\
    (forall c, c ∈ values PT_COLS -> c ∈ demo_schema ->
       row_get r c = Some (VInt (if decide (c = pt) then 1 else 0))) /\
    (forall c, c ∈ values SM_COLS -> c ∈ demo_schema ->
       row_get r c = Some (VInt (if decide (c = sm) then 1 else 0))).
Proof.
  split; [exact demo_widgets_ok |].
  apply (one_hot_families demo_schema demo_widgets). exact demo_widgets_ok.
Defined.

(** C3: when the schema has the column "rooms_total", the row
    [build_row S w] returns binds it to the integer
    [beds + baths + parking]. *)
Theorem rooms_total_cell (S : list string) (w : Widgets) :
  widgets_ok w -> "rooms_total" ∈ S ->
  exists r, build_row S w = Ok r /\
    row_get r "rooms_total" = Some (VInt (beds w + baths w + parking w)).
Proof.
  intros Hw HS.
  destruct (build_row_cells S w Hw) as (pt & sm & _ & Hpt & _ & Hsm & ->).
  eexists. split; [done |].
  rewrite row_get_fmap, decide_True by done.
  rewrite cell_outside_families by (done || by_evaluation).
  reflexivity.
Qed.

Lemma rooms_total_cell_witness :
  widgets_ok demo_widgets /\ "rooms_total" ∈ demo_schema /\
  exists r, build_row demo_schema demo_widgets = Ok r /\
    row_get r "rooms_total" = Some (VInt (3 + 2 + 1)).
Proof.
  split; [exact demo_widgets_ok |]. split; [by_evaluation |].
  apply (rooms_total_cell demo_schema demo_widgets);
    [exact demo_widgets_ok | by_evaluation].
Defined.

(** C4: when the schema has the column "amenity_access_index", the row
    [build_row S w] returns binds it to the binary64 value of
    [1/(1e-6+d_supermarket) + 1/(1e-6+d_train) + 1/(1e-6+d_bus)
     + 1/(1e-6+d_park)]; for the distances (0.8, 1.2, 0.3, 0.5) that value
    is within 1e-3 of 7.417. *)
Theorem amenity_access_index_cell (S : list string) (w : Widgets) :
  widgets_ok w -> "amenity_access_index" ∈ S ->
  exists r v,
    build_row S w = Ok r /\
    row_get r "amenity_access_index" = Some (VFloat v) /\
    v = (1 / (1e-6 + nearest_supermarket w) + 1 / (1e-6 + nearest_train w)
         + 1 / (1e-6 + nearest_bus w) + 1 / (1e-6 + nearest_park w))%float /\
    (nearest_supermarket w = 0.8%float -> nearest_train w = 1.2%float ->
     nearest_bus w = 0.3%float -> nearest_park w = 0.5%float ->
     (abs (v - 7.417) <? 1e-3)%float = true).
Proof.
  intros Hw HS.
  destruct (build_row_cells S w Hw) as (pt & sm & _ & Hpt & _ & Hsm & ->).
  eexists _, _. split; [done |]. split; [| split; [reflexivity |]].
  - rewrite row_get_fmap, decide_True by done.
    rewrite cell_outside_families by (done || by_evaluation).
    reflexivity.
  - intros -> -> -> ->. by vm_compute.
Qed.

Lemma amenity_access_index_cell_witness :
  widgets_ok demo_widgets /\
  "amenity_access_index" ∈ ["amenity_access_index"; "beds"] /\
  exists r v,
    build_row ["amenity_access_index"; "beds"] demo_widgets = Ok r /\
    row_get r "amenity_access_index" = Some (VFloat v) /\
    v = (1 / (1e-6 + 0.8) + 1 / (1e-6 + 1.2)
         + 1 / (1e-6 + 0.3) + 1 / (1e-6 + 0.5))%float /\
    (abs (v - 7.417) <? 1e-3)%float = true.
Proof.
  split; [exact demo_widgets_ok |]. split; [by_evaluation |].
  destruct (amenity_access_index_cell ["amenity_access_index"; "beds"]
              demo_widgets demo_widgets_ok ltac:(by_evaluation))
    as (r & v & Hr & Hv & Hsum & Hnear).
  exists r, v. repeat split; try assumption.
  apply Hnear; reflexivity.
Defined.

(** C5: when the one-hot column mapped from the selected label of a family
    (property type or sale method) is absent from the schema,
    [build_row S w] still returns a row, and no column of it reflects the
    selection:
    - every column of the family present in [S] holds 0;
    - no column at all is set to 1 on its behalf: a cell that holds 1 is
      the selected column of the other family or a count that is 1;
    - every cell outside the family is what it is for any selection of
      that family, absent or present;
    - any other selection whose column is absent too gives the very same
      row;
    - the row is the one of the schema extended with the selected column,
      less that column: only there would the selection show. *)
Theorem absent_selection_ignored (f : family) (S : list string) (w : Widgets)
    (sel : string) :
  widgets_ok w -> getitem (table f) (selection f w) = Ok sel -> sel ∉ S ->
  exists r,
    build_row S w = Ok r /\
    (forall c, c ∈ values (table f) -> c ∈ S -> row_get r c = Some (VInt 0)) /\
    (forall c, row_get r c = Some (VInt 1) ->
       getitem (table (other_family f)) (selection (other_family f) w) = Ok c \/
       (c = "beds" /\ beds w = 1%Z) \/ (c = "baths" /\ baths w = 1%Z) \/
       (c = "parking" /\ parking w = 1%Z) \/
       (c = "rooms_total" /\ (beds w + baths w + parking w = 1)%Z)) /\
    (forall label sel', getitem (table f) label = Ok sel' ->
       exists r', build_row S (with_selection f label w) = Ok r' /\
         forall c, c ∉ values (table f) -> row_get r' c = row_get r c) /\
    (forall label sel', getitem (table f) label = Ok sel' -> sel' ∉ S ->
       build_row S (with_selection f label w) = Ok r) /\
    build_row (S ++ [sel])%list w = Ok (r ++ [(sel, VInt 1)])%list.
Proof.
  intros Hw Hsel Habsent.
  destruct (build_row_cells S w Hw) as (pt & sm & Hpt & Hpt' & Hsm & Hsm' & HS).
  destruct (build_row_cells (S ++ [sel]) w Hw)
    as (pt2 & sm2 & Hpt2 & _ & Hsm2 & _ & HS2).
  assert (pt2 = pt) as -> by congruence.
  assert (sm2 = sm) as -> by congruence.
  rewrite HS, HS2. clear HS HS2.
  eexists. split; [done |].
  destruct f; cbn [table selection with_selection other_family] in *.
  - assert (sel = pt) as -> by congruence.
    split; [| split; [| split; [| split]]].
    + intros c Hc Hin. rewrite row_get_fmap, decide_True by done.
      rewrite cell_property_type by done.
      rewrite decide_False; [done | by intros ->].
    + intros c. rewrite row_get_fmap.
      destruct (decide (c ∈ S)) as [Hin |]; [| done].
      intros [= [-> | [-> | Hone]]%cell_one]; [by left | done | by right].
    + intros label pt' Hlabel. eexists.
      split; [by apply (build_row_with_property_type S w label pt' sm) |].
      intros c Hc. rewrite !row_get_fmap.
      destruct (decide (c ∈ S)); [| done]. f_equal.
      apply cell_frame_property_type; [by eapply getitem_Ok | done | done].
    + intros label pt' Hlabel Habsent'.
      rewrite (build_row_with_property_type S w label pt' sm) by done.
      f_equal. apply list_fmap_ext. intros i c Hc%list_elem_of_lookup_2.
      f_equal. unfold cell.
      rewrite (decide_False (P := c = pt')) by (by intros ->).
      by rewrite (decide_False (P := c = pt)) by (by intros ->).
    + rewrite fmap_app. cbn [fmap list_fmap].
      rewrite cell_property_type by done. by rewrite decide_True.
  - assert (sel = sm) as -> by congruence.
    split; [| split; [| split; [| split]]].
    + intros c Hc Hin. rewrite row_get_fmap, decide_True by done.
      rewrite cell_sale_method by done.
      rewrite decide_False; [done | by intros ->].
    + intros c. rewrite row_get_fmap.
      destruct (decide (c ∈ S)) as [Hin |]; [| done].
      intros [= [-> | [-> | Hone]]%cell_one]; [done | by left | by right].
    + intros label sm' Hlabel. eexists.
      split; [by apply (build_row_with_sale_method S w label pt sm') |].
      intros c Hc. rewrite !row_get_fmap.
      destruct (decide (c ∈ S)); [| done]. f_equal.
      apply cell_frame_sale_method; [by eapply getitem_Ok | done | done].
    + intros label sm' Hlabel Habsent'.
      rewrite (build_row_with_sale_method S w label pt sm') by done.
      f_equal. apply list_fmap_ext. intros i c Hc%list_elem_of_lookup_2.
      f_equal. unfold cell.
      rewrite (decide_False (P := c = sm')) by (by intros ->).
      by rewrite (decide_False (P := c = sm)) by (by intros ->).
    + rewrite fmap_app. cbn [fmap list_fmap].
      rewrite cell_sale_method by done. by rewrite decide_True.
Qed.

Lemma absent_selection_ignored_witness :
  widgets_ok demo_widgets /\
  getitem (table PropertyType) (selection PropertyType demo_widgets)
    = Ok "property_type_house" /\
  ("property_type_house" ∉ ["beds"; "property_type_villa"]) /\
  exists r,
    build_row ["beds"; "property_type_villa"] demo_widgets = Ok r /\
    (forall c, c ∈ values (table PropertyType) ->
       c ∈ ["beds"; "property_type_villa"] -> row_get r c = Some (VInt 0)) /\
    (forall c, row_get r c = Some (VInt 1) ->
       getitem (table (other_family PropertyType))
         (selection (other_family PropertyType) demo_widgets) = Ok c \/
       (c = "beds" /\ beds demo_widgets = 1%Z) \/
       (c = "baths" /\ baths demo_widgets = 1%Z) \/
       (c = "parking" /\ parking demo_widgets = 1%Z) \/
       (c = "rooms_total" /\
        (beds demo_widgets + baths demo_widgets + parking demo_widgets = 1)%Z)) /\
    (forall label sel', getitem (table PropertyType) label = Ok sel' ->
       exists r',
         build_row ["beds"; "property_type_villa"]
           (with_selection PropertyType label demo_widgets) = Ok r' /\
         forall c, c ∉ values (table PropertyType) ->
           row_get r' c = row_get r c) /\
    (forall label sel', getitem (table PropertyType) label = Ok sel' ->
       sel' ∉ ["beds"; "property_type_villa"] ->
       build_row ["beds"; "property_type_villa"]
         (with_selection PropertyType label demo_widgets) = Ok r) /\
    build_row (["beds"; "property_type_villa"] ++ ["property_type_house"])%list
      demo_widgets
    = Ok (r ++ [("property_type_house", VInt 1)])%list.
Proof.
  split; [exact demo_widgets_ok |]. split; [reflexivity |].
  split; [by_evaluation |].
  apply (absent_selection_ignored PropertyType ["beds"; "property_type_villa"]
           demo_widgets "property_type_house");
    [exact demo_widgets_ok | reflexivity | by_evaluation].
Defined.

(** C6: every column of the schema that no population rule names (no raw
    scalar field, neither derived field, no column of the two one-hot
    families) is bound to the missing-value sentinel, NaN, in the row
    [build_row S w] returns. *)
Theorem unset_columns_nan (S : list string) (w : Widgets) (c : string) :
  widgets_ok w -> c ∈ S -> c ∉ rule_cols ->
  exists r, build_row S w = Ok r /\ row_get r c = Some np_nan.
Proof.
  intros Hw HS Hc.
  destruct (build_row_cells S w Hw) as (pt & sm & _ & Hpt & _ & Hsm & ->).
  eexists. split; [done |].
  rewrite row_get_fmap, decide_True by done.
  by rewrite cell_unset.
Qed.

Lemma unset_columns_nan_witness :
  widgets_ok demo_widgets /\ "suburb_median" ∈ ["beds"; "suburb_median"] /\
  ("suburb_median" ∉ rule_cols) /\
  exists r, build_row ["beds"; "suburb_median"] demo_widgets = Ok r /\
    row_get r "suburb_median" = Some np_nan.
Proof.
  split; [exact demo_widgets_ok |]. split; [by_evaluation |].
  split; [by_evaluation |].
  apply (unset_columns_nan ["beds"; "suburb_median"] demo_widgets "suburb_median");
    [exact demo_widgets_ok | by_evaluation | by_evaluation].
Defined.

(** C7: for the schema [beds, baths, parking, rooms_total,
    property_type_house, property_type_apartment_unit_flat_studio,
    sale_method_auction] and any widget values with beds 3, baths 2,
    parking 1, property type "House" and sale method "Auction",
    [build_row] returns exactly the row of the scenario. *)
Theorem end_to_end_scenario (ls dc ds dt db dp : float) :
  nonneg ds -> nonneg dt -> nonneg db -> nonneg dp ->
  build_row
    ["beds"; "baths"; "parking"; "rooms_total"; "property_type_house";
     "property_type_apartment_unit_flat_studio"; "sale_method_auction"]
    {| beds := 3; baths := 2; parking := 1;
       land_size := ls; distance_to_cbd := dc;
       nearest_supermarket := ds; nearest_train := dt;
       nearest_bus := db; nearest_park := dp;
       property_type := "House"; sale_method := "Auction" |}
  = Ok [("beds", VInt 3); ("baths", VInt 2); ("parking", VInt 1);
        ("rooms_total", VInt 6); ("property_type_house", VInt 1);
        ("property_type_apartment_unit_flat_studio", VInt 0);
        ("sale_method_auction", VInt 1)].
Proof.
  intros Hs Ht Hb Hp. unfold build_row.
  rewrite amenity_access_index_ok by done.
  cbn [mbind result_bind]. by vm_compute.
Qed.

Lemma end_to_end_scenario_witness :
  nonneg 0.8 /\ nonneg 1.2 /\ nonneg 0.3 /\ nonneg 0.5 /\
  build_row
    ["beds"; "baths"; "parking"; "rooms_total"; "property_type_house";
     "property_type_apartment_unit_flat_studio"; "sale_method_auction"]
    {| beds := 3; baths := 2; parking := 1;
       land_size := 400; distance_to_cbd := 10;
       nearest_supermarket := 0.8; nearest_train := 1.2;
       nearest_bus := 0.3; nearest_park := 0.5;
       property_type := "House"; sale_method := "Auction" |}
  = Ok [("beds", VInt 3); ("baths", VInt 2); ("parking", VInt 1);
        ("rooms_total", VInt 6); ("property_type_house", VInt 1);
        ("property_type_apartment_unit_flat_studio", VInt 0);
        ("sale_method_auction", VInt 1)].
Proof.
  repeat (split; [reflexivity |]).
  apply (end_to_end_scenario 400 10 0.8 1.2 0.3 0.5); reflexivity.
Defined.

(** C8: when the predictor raises on the built row, the handler raises the
    very same error: the predictor has been called once and no more, and
    the page shows nothing it did not show before, so no estimate at
    all. *)
Theorem predictor_error_propagates (predict : row -> result (list float))
    (format_price : float -> string) (non_nan_fields : row -> row)
    (S : list string) (w : Widgets)
    (rt : Z) (index : float) (X : row) (e : exn) (p : page) :
  build_input_row S w rt index = Ok X -> predict X = Raise e ->
  on_predict predict format_price non_nan_fields S w rt index true p
  = (Raise e, {| rendered := rendered p;
                 predict_calls := predict_calls p ++ [X] |}).
Proof.
  intros HX He.
  unfold on_predict, mbind, ui_bind, lift, pipe_predict.
  by rewrite HX, He.
Qed.

Lemma predictor_error_propagates_witness :
  build_input_row ["beds"] demo_widgets 6 7.4 = Ok [("beds", VInt 3)] /\
  strict_predictor [("beds", VInt 3)]
    = Raise (PredictorError "columns are missing") /\
  on_predict strict_predictor (fun _ => "0") (fun X => X) ["beds"]
    demo_widgets 6 7.4 true {| rendered := []; predict_calls := [] |}
  = (Raise (PredictorError "columns are missing"),
     {| rendered := []; predict_calls := [[("beds", VInt 3)]] |}).
Proof.
  split; [by vm_compute |]. split; [reflexivity |].
  apply (predictor_error_propagates strict_predictor (fun _ => "0")
           (fun X => X) ["beds"]
           demo_widgets 6 7.4 [("beds", VInt 3)]
           (PredictorError "columns are missing")
           {| rendered := []; predict_calls := [] |});
    [by vm_compute | reflexivity].
Defined.

(** C9: [put_if_present d name v] never changes the key set of [d]; when
    [name] is not a key, [d] is returned unchanged; when it is, the entry
    of [name] becomes [v] and every other entry keeps its value. *)
Theorem put_if_present_frame (d : gmap string value) (name : string) (v : value) :
  dom (put_if_present d name v) = dom d /\
  (name ∉ dom d -> put_if_present d name v = d) /\
  (name ∈ dom d ->
     put_if_present d name v !! name = Some v /\
     forall k, k <> name -> put_if_present d name v !! k = d !! k).
Proof.
  split; [apply dom_put_if_present |]. split.
  - intros Hd%not_elem_of_dom. by apply put_if_present_absent.
  - intros [x Hd]%elem_of_dom. split.
    + rewrite lookup_put_if_present, Hd.
      cbn [fmap option_fmap option_map]. by rewrite decide_True.
    + intros k Hk. rewrite lookup_put_if_present.
      destruct (d !! k); [| done].
      cbn [fmap option_fmap option_map]. by rewrite decide_False.
Qed.

Lemma put_if_present_frame_witness :
  dom (put_if_present {["beds" := np_nan]} "beds" (VInt 3))
    = dom ({["beds" := np_nan]} : gmap string value) /\
  put_if_present {["beds" := np_nan]} "baths" (VInt 2) = {["beds" := np_nan]} /\
  put_if_present {["beds" := np_nan]} "beds" (VInt 3) !! "beds" = Some (VInt 3).
Proof.
  destruct (put_if_present_frame {["beds" := np_nan]} "beds" (VInt 3))
    as (Hdom & _ & Hset).
  destruct (put_if_present_frame {["beds" := np_nan]} "baths" (VInt 2))
    as (_ & Hskip & _).
  split; [exact Hdom |]. split.
  - apply Hskip. by_evaluation.
  - apply Hset. by_evaluation.
Defined.

(** C10: when the four amenity distances are non-negative, each
    denominator [1e-6 + d] of the index is strictly positive, and the
    computation of the index raises no [ZeroDivisionError]: it returns the
    sum of the four quotients. *)
Theorem denominators_positive (w : Widgets) :
  nonneg (nearest_supermarket w) -> nonneg (nearest_train w) ->
  nonneg (nearest_bus w) -> nonneg (nearest_park w) ->
  (0 <? 1e-6 + nearest_supermarket w)%float = true /\
  (0 <? 1e-6 + nearest_train w)%float = true /\
  (0 <? 1e-6 + nearest_bus w)%float = true /\
  (0 <? 1e-6 + nearest_park w)%float = true /\
  amenity_access_index w
  = Ok (1 / (1e-6 + nearest_supermarket w) + 1 / (1e-6 + nearest_train w)
        + 1 / (1e-6 + nearest_bus w) + 1 / (1e-6 + nearest_park w))%float.
Proof.
  intros Hs Ht Hb Hp.
  repeat (split; [by apply denominator_pos |]).
  by apply amenity_access_index_ok.
Qed.

Lemma denominators_positive_witness :
  nonneg 0 /\ nonneg 1.2 /\ nonneg 0.3 /\ nonneg 200 /\
  (0 <? 1e-6 + 0)%float = true /\
  (0 <? 1e-6 + 1.2)%float = true /\
  (0 <? 1e-6 + 0.3)%float = true /\
  (0 <? 1e-6 + 200)%float = true /\
  amenity_access_index
    {| beds := 3; baths := 2; parking := 1;
       land_size := 400; distance_to_cbd := 10;
       nearest_supermarket := 0; nearest_train := 1.2;
       nearest_bus := 0.3; nearest_park := 200;
       property_type := "House"; sale_method := "Auction" |}
  = Ok (1 / (1e-6 + 0) + 1 / (1e-6 + 1.2)
        + 1 / (1e-6 + 0.3) + 1 / (1e-6 + 200))%float.
Proof.
  repeat (split; [reflexivity |]).
  apply (denominators_positive
           {| beds := 3; baths := 2; parking := 1;
              land_size := 400; distance_to_cbd := 10;
              nearest_supermarket := 0; nearest_train := 1.2;
              nearest_bus := 0.3; nearest_park := 200;
              property_type := "House"; sale_method := "Auction" |});
    reflexivity.
Defined.

(** * Further properties of the code *)

(** ** Binary64: quotients and sums of non-negative values *)

Section Binary64Nonneg.
Local Open Scope Z_scope.

Lemma shr_fexp_nonneg (m e : Z) (l : location) :
  0 <= m ->
  exists mrs e', shr_fexp prec emax m e l = (mrs, e') /\ 0 <= shr_m mrs.
Proof.
  intros Hm0. unfold shr_fexp, shr.
  assert (Hm : shr_m (shr_record_of_loc m l) = m).
  { by destruct l as [| []]. }
  destruct (fexp prec emax (Zdigits2 m + e) - e) as [| p | p];
    [ eexists _, _; split; [done | by rewrite Hm]
    | | eexists _, _; split; [done | by rewrite Hm] ].
  eexists _, _. split; [done |].
  rewrite iter_shr_1_m by (by rewrite Hm). rewrite Hm.
  apply Z.div_pos; lia.
Qed.

Lemma binary_round_aux_nonneg (m e : Z) (l : location) :
  0 <= m -> SFnonneg (binary_round_aux prec emax false m e l).
Proof.
  intros Hm. unfold binary_round_aux.
  destruct (shr_fexp_nonneg m e l Hm) as (mrs' & e' & -> & Hm').
  assert (0 <= round_nearest_even (shr_m mrs') (loc_of_shr_record mrs')) as Hr.
  { unfold round_nearest_even.
    destruct (loc_of_shr_record mrs') as [| []]; try lia.
    destruct (Z.even (shr_m mrs')); lia. }
  destruct (shr_fexp_nonneg _ e' loc_Exact Hr) as (mrs'' & e'' & -> & Hm'').
  destruct (shr_m mrs'') as [| r | r]; [done | | lia].
  by destruct (e'' <=? emax - prec).
Qed.

Lemma SFdiv_nonneg (mx : positive) (ex : Z) (y : spec_float) :
  SFpos y -> SFnonneg (SF64div (S754_finite false mx ex) y).
Proof.
  unfold SFpos, SFltb, SF64div.
  destruct y as [sy | [] | | [] my ey]; try done.
  intros _. unfold SFdiv, SFdiv_core_binary. cbv zeta.
  match goal with |- context [Z.div_eucl ?a ?b] => set (m' := a) end.
  assert (0 <= m') as Hm'.
  { subst m'. destruct (_ - _ - _); [lia | | lia].
    apply Z.shiftl_nonneg. lia. }
  pose proof (Z.div_pos m' (Zpos my) Hm' ltac:(lia)) as Hq.
  unfold Z.div in Hq. destruct (Z.div_eucl m' (Zpos my)) as [q r].
  by apply binary_round_aux_nonneg.
Qed.

Lemma SFadd_nonneg (x y : spec_float) :
  valid_binary x = true -> valid_binary y = true ->
  SFnonneg x -> SFnonneg y -> SFnonneg (SF64add x y).
Proof.
  intros Vx Vy Hx Hy.
  destruct x as [sx | [] | | [] mx ex]; try done;
    destruct y as [sy | [] | | [] my ey]; try done;
    try (by destruct sx); try (by destruct sy); try (by destruct sx, sy).
  assert (SFpos (SF64add (S754_finite false mx ex) (S754_finite false my ey))) as H.
  { by apply SFadd_pos. }
  revert H. unfold SFpos, SFnonneg, SFltb, SFleb.
  by destruct (SFcompare _ _) as [[] |].
Qed.
End Binary64Nonneg.

Lemma inverse_nonneg (x : float) :
  (0 <? x)%float = true -> nonneg (1 / x)%float.
Proof.
  unfold nonneg.
  rewrite FloatAxioms.ltb_spec, FloatAxioms.leb_spec, FloatAxioms.div_spec.
  change (Prim2SF 0) with (S754_zero false).
  change (Prim2SF 1) with (S754_finite false 4503599627370496 (-52)).
  apply SFdiv_nonneg.
Qed.

Lemma add_nonneg (x y : float) : nonneg x -> nonneg y -> nonneg (x + y)%float.
Proof.
  unfold nonneg.
  rewrite !FloatAxioms.leb_spec, FloatAxioms.add_spec.
  change (Prim2SF 0) with (S754_zero false).
  apply SFadd_nonneg; apply Prim2SF_valid.
Qed.

Lemma nonneg_not_nan (x : float) : nonneg x -> is_nan x = false.
Proof.
  unfold nonneg, is_nan.
  rewrite FloatAxioms.leb_spec, FloatAxioms.eqb_spec.
  change (Prim2SF 0) with (S754_zero false).
  unfold SFleb, SFeqb.
  destruct (Prim2SF x) as [sx | [] | | [] mx ex]; try done.
  intros _. cbn [SFcompare].
  by rewrite Z.compare_refl, Pos.compare_cont_refl.
Qed.

Lemma inverse_distance_sum_nonneg (ds dt db dp : float) :
  nonneg ds -> nonneg dt -> nonneg db -> nonneg dp ->
  nonneg (inverse_distance_sum ds dt db dp).
Proof.
  intros Hs Ht Hb Hp. unfold inverse_distance_sum.
  repeat apply add_nonneg; apply inverse_nonneg; by apply denominator_pos.
Qed.

(** X1: within the bounds of the widgets the amenity index is a number
    that is not below zero; in particular it is never NaN, the value the
    builder uses for "missing". *)
Theorem amenity_access_index_nonneg (w : Widgets) :
  nonneg (nearest_supermarket w) -> nonneg (nearest_train w) ->
  nonneg (nearest_bus w) -> nonneg (nearest_park w) ->
  exists index,
    amenity_access_index w = Ok index /\
    (0 <=? index)%float = true /\ is_nan index = false.
Proof.
  intros Hs Ht Hb Hp.
  rewrite amenity_access_index_ok by done.
  eexists. split; [done |].
  pose proof (inverse_distance_sum_nonneg _ _ _ _ Hs Ht Hb Hp) as Hsum.
  split; [exact Hsum | by apply nonneg_not_nan].
Qed.

Lemma amenity_access_index_nonneg_witness :
  nonneg 0.8 /\ nonneg 1.2 /\ nonneg 0.3 /\ nonneg 0.5 /\
  exists index,
    amenity_access_index demo_widgets = Ok index /\
    (0 <=? index)%float = true /\ is_nan index = false.
Proof.
  repeat (split; [reflexivity |]).
  apply (amenity_access_index_nonneg demo_widgets); reflexivity.
Defined.

(** X2: the index computation raises nothing but [ZeroDivisionError], and
    raises it exactly when one of the four denominators [1e-6 + d] equals
    zero; otherwise it returns the sum of the four quotients. *)
Theorem amenity_access_index_raises (w : Widgets) :
  let zero_denominator :=
    ((1e-6 + nearest_supermarket w =? 0) || (1e-6 + nearest_train w =? 0)
     || (1e-6 + nearest_bus w =? 0) || (1e-6 + nearest_park w =? 0))%float in
  amenity_access_index w
  = if zero_denominator then Raise ZeroDivisionError
    else Ok (inverse_distance_sum (nearest_supermarket w) (nearest_train w)
               (nearest_bus w) (nearest_park w)).
Proof.
  unfold amenity_access_index, truediv, eps. cbv zeta.
  destruct (1e-6 + nearest_supermarket w =? 0)%float; [done |].
  destruct (1e-6 + nearest_train w =? 0)%float; [done |].
  destruct (1e-6 + nearest_bus w =? 0)%float; [done |].
  by destruct (1e-6 + nearest_park w =? 0)%float.
Qed.

(** ** The dict operations *)

(** X3: two [put_if_present] on the same name: the last value wins, and the
    result is the same as if only the last call had been made. *)
Theorem put_if_present_overwrite (d : gmap string value) (name : string)
    (v1 v2 : value) :
  put_if_present (put_if_present d name v1) name v2 = put_if_present d name v2.
Proof.
  apply map_eq. intros k. rewrite !lookup_put_if_present.
  destruct (d !! k); [| done]. cbn [fmap option_fmap option_map].
  by case_decide.
Qed.

(** X4: [put_if_present] calls on different names commute: the order of
    the population rules for different columns does not matter. *)
Theorem put_if_present_commute (d : gmap string value) (n1 n2 : string)
    (v1 v2 : value) :
  n1 <> n2 ->
  put_if_present (put_if_present d n1 v1) n2 v2
  = put_if_present (put_if_present d n2 v2) n1 v1.
Proof.
  intros Hne. apply map_eq. intros k. rewrite !lookup_put_if_present.
  destruct (d !! k); [| done]. cbn [fmap option_fmap option_map].
  repeat case_decide; congruence.
Qed.

Lemma put_if_present_commute_witness :
  "beds" <> "baths" /\
  put_if_present (put_if_present (all_nan ["beds"; "baths"]) "beds" (VInt 3))
    "baths" (VInt 2)
  = put_if_present (put_if_present (all_nan ["beds"; "baths"]) "baths" (VInt 2))
      "beds" (VInt 3).
Proof.
  split; [done |].
  apply (put_if_present_commute (all_nan ["beds"; "baths"]) "beds" "baths"
           (VInt 3) (VInt 2)).
  done.
Defined.

(** X5: the zeroing loop [for col in cols: put_if_present(d, col, 0)] keeps
    the key set; every listed column that is a key ends at 0, no listed
    column is added, and every other entry keeps its value. *)
Theorem zero_out_frame (d : gmap string value) (cols : list string) :
  dom (zero_out d cols) = dom d /\
  (forall k, k ∈ cols -> k ∈ dom d -> zero_out d cols !! k = Some (VInt 0)) /\
  (forall k, k ∉ cols -> zero_out d cols !! k = d !! k).
Proof.
  split; [| split].
  - apply set_eq. intros k. rewrite !elem_of_dom, lookup_zero_out.
    apply fmap_is_Some.
  - intros k Hk [x Hd]%elem_of_dom. rewrite lookup_zero_out, Hd.
    cbn [fmap option_fmap option_map]. by rewrite decide_True.
  - intros k Hk. rewrite lookup_zero_out.
    destruct (d !! k); [| done]. cbn [fmap option_fmap option_map].
    by rewrite decide_False.
Qed.

(** X6: the dict comprehension [{c: np.nan for c in FEATURES}] has exactly
    the names of [FEATURES] as keys (a repeated name gives one key) and
    binds every one of them to NaN. *)
Theorem all_nan_spec (FEATURES : list string) :
  dom (all_nan FEATURES) = list_to_set FEATURES /\
  (forall k, k ∈ FEATURES -> all_nan FEATURES !! k = Some np_nan) /\
  (forall k, k ∉ FEATURES -> all_nan FEATURES !! k = None).
Proof.
  split; [| split].
  - apply set_eq. intros k.
    rewrite elem_of_dom, lookup_all_nan, elem_of_list_to_set.
    destruct (decide (k ∈ FEATURES)); split; try done.
  - intros k Hk. by rewrite lookup_all_nan, decide_True.
  - intros k Hk. by rewrite lookup_all_nan, decide_False.
Qed.

(** ** The mapping tables and the errors of the builder *)

Lemma getitem_KeyError (table : list (string * string)) (key : string) :
  key ∉ table.*1 -> getitem table key = Raise (KeyError key).
Proof.
  induction table as [| [k v] rest IH]; cbn [getitem fmap list_fmap fst]; [done |].
  intros [Hne Hin]%not_elem_of_cons.
  rewrite decide_False by done. by apply IH.
Qed.

Lemma getitem_Ok_key (table : list (string * string)) (key v : string) :
  getitem table key = Ok v -> key ∈ table.*1.
Proof.
  induction table as [| [k x] rest IH]; cbn [getitem fmap list_fmap fst]; [done |].
  destruct (decide (k = key)) as [-> | Hne].
  - intros _. left.
  - intros H. right. by apply IH.
Qed.

Lemma build_input_row_property_type_error (S : list string) (w : Widgets)
    (rt : Z) (index : float) (e : exn) :
  getitem PT_COLS (property_type w) = Raise e ->
  build_input_row S w rt index = Raise e.
Proof. intros H. unfold build_input_row. cbv zeta. by rewrite H. Qed.

Lemma build_input_row_sale_method_error (S : list string) (w : Widgets)
    (rt : Z) (index : float) (pt : string) (e : exn) :
  getitem PT_COLS (property_type w) = Ok pt ->
  getitem SM_COLS (sale_method w) = Raise e ->
  build_input_row S w rt index = Raise e.
Proof.
  intros Hpt Hsm. unfold build_input_row. cbv zeta.
  rewrite Hpt. cbn [mbind result_bind]. by rewrite Hsm.
Qed.

Lemma build_input_row_inv (S : list string) (w : Widgets) (rt : Z)
    (index : float) (r : row) :
  build_input_row S w rt index = Ok r ->
  exists pt sm,
    getitem PT_COLS (property_type w) = Ok pt /\ pt ∈ values PT_COLS /\
    getitem SM_COLS (sale_method w) = Ok sm /\ sm ∈ values SM_COLS /\
    r = (fun c => (c, cell w rt index pt sm c)) <$> S.
Proof.
  intros Hr.
  destruct (getitem PT_COLS (property_type w)) as [pt | e] eqn:Hpt;
    [| by rewrite (build_input_row_property_type_error _ _ _ _ e) in Hr].
  destruct (getitem SM_COLS (sale_method w)) as [sm | e] eqn:Hsm;
    [| by rewrite (build_input_row_sale_method_error _ _ _ _ pt e) in Hr].
  rewrite (build_input_row_cells S w rt index pt sm) in Hr by done.
  injection Hr as <-.
  exists pt, sm. repeat split; try done; by eapply getitem_Ok.
Qed.

(** X7: [build_input_row] returns a row exactly when both selections are
    among the options of their select boxes, whatever the schema and the
    other values are. *)
Theorem build_input_row_succeeds_iff (S : list string) (w : Widgets) (rt : Z)
    (index : float) :
  (exists r, build_input_row S w rt index = Ok r) <->
  property_type w ∈ property_type_options /\
  sale_method w ∈ sale_method_options.
Proof.
  split.
  - intros [r (pt & sm & Hpt & _ & Hsm & _ & _)%build_input_row_inv].
    split; [exact (getitem_Ok_key _ _ _ Hpt) | exact (getitem_Ok_key _ _ _ Hsm)].
  - intros [Hpt Hsm].
    destruct (getitem_total PT_COLS (property_type w) Hpt) as [pt Hpt'].
    destruct (getitem_total SM_COLS (sale_method w) Hsm) as [sm Hsm'].
    eexists. by apply (build_input_row_cells S w rt index pt sm).
Qed.

(** X8: a property type that is no key of [PT_COLS] makes
    [build_input_row] raise [KeyError] with that label, whatever the sale
    method is: the property type is looked up first. *)
Theorem unknown_property_type_KeyError (S : list string) (w : Widgets) (rt : Z)
    (index : float) :
  property_type w ∉ property_type_options ->
  build_input_row S w rt index = Raise (KeyError (property_type w)).
Proof.
  intros H. apply build_input_row_property_type_error.
  by apply getitem_KeyError.
Qed.

Lemma unknown_property_type_KeyError_witness :
  ("Castle" ∉ property_type_options) /\
  build_input_row demo_schema
    (with_sale_method "Raffle" (with_property_type "Castle" demo_widgets)) 6 7.4
  = Raise (KeyError "Castle").
Proof.
  split; [by_evaluation |].
  apply (unknown_property_type_KeyError demo_schema
           (with_sale_method "Raffle" (with_property_type "Castle" demo_widgets))
           6 7.4).
  by_evaluation.
Defined.

(** X9: with a known property type, a sale method that is no key of
    [SM_COLS] makes [build_input_row] raise [KeyError] with that label. *)
Theorem unknown_sale_method_KeyError (S : list string) (w : Widgets) (rt : Z)
    (index : float) :
  property_type w ∈ property_type_options ->
  sale_method w ∉ sale_method_options ->
  build_input_row S w rt index = Raise (KeyError (sale_method w)).
Proof.
  intros Hpt Hsm.
  destruct (getitem_total PT_COLS (property_type w) Hpt) as [pt Hpt'].
  apply (build_input_row_sale_method_error _ _ _ _ pt); [done |].
  by apply getitem_KeyError.
Qed.

Lemma unknown_sale_method_KeyError_witness :
  "House" ∈ property_type_options /\ ("Raffle" ∉ sale_method_options) /\
  build_input_row demo_schema (with_sale_method "Raffle" demo_widgets) 6 7.4
  = Raise (KeyError "Raffle").
Proof.
  split; [by_evaluation |]. split; [by_evaluation |].
  apply (unknown_sale_method_KeyError demo_schema
           (with_sale_method "Raffle" demo_widgets) 6 7.4); by_evaluation.
Defined.

(** ** The cells of the row *)

(** X10: every raw scalar field is passed through unchanged: when the
    schema has the column of that name, the row binds it to the value of
    the widget. *)
Theorem raw_fields_pass_through (S : list string) (w : Widgets) (rt : Z)
    (index : float) (r : row) :
  build_input_row S w rt index = Ok r ->
  ("beds" ∈ S -> row_get r "beds" = Some (VInt (beds w))) /\
  ("baths" ∈ S -> row_get r "baths" = Some (VInt (baths w))) /\
  ("parking" ∈ S -> row_get r "parking" = Some (VInt (parking w))) /\
  ("land_size" ∈ S -> row_get r "land_size" = Some (VFloat (land_size w))) /\
  ("distance_to_cbd" ∈ S ->
     row_get r "distance_to_cbd" = Some (VFloat (distance_to_cbd w))) /\
  ("nearest_supermarket" ∈ S ->
     row_get r "nearest_supermarket" = Some (VFloat (nearest_supermarket w))) /\
  ("nearest_train" ∈ S ->
     row_get r "nearest_train" = Some (VFloat (nearest_train w))) /\
  ("nearest_bus" ∈ S -> row_get r "nearest_bus" = Some (VFloat (nearest_bus w))) /\
  ("nearest_park" ∈ S -> row_get r "nearest_park" = Some (VFloat (nearest_park w))).
Proof.
  intros (pt & sm & _ & Hpt & _ & Hsm & ->)%build_input_row_inv.
  repeat split; intros HS;
    rewrite row_get_fmap, decide_True by done;
    (rewrite cell_outside_families by (done || by_evaluation));
    reflexivity.
Qed.

Lemma raw_fields_pass_through_witness :
  build_input_row ["land_size"; "beds"] demo_widgets 6 7.4
    = Ok [("land_size", VFloat 400); ("beds", VInt 3)] /\
  row_get [("land_size", VFloat 400); ("beds", VInt 3)] "land_size"
    = Some (VFloat 400) /\
  row_get [("land_size", VFloat 400); ("beds", VInt 3)] "beds" = Some (VInt 3).
Proof.
  assert (build_input_row ["land_size"; "beds"] demo_widgets 6 7.4
          = Ok [("land_size", VFloat 400); ("beds", VInt 3)]) as Hr
    by (by vm_compute).
  split; [exact Hr |].
  destruct (raw_fields_pass_through _ _ _ _ _ Hr)
    as (Hbeds & _ & _ & Hland & _).
  split; [apply Hland | apply Hbeds]; by_evaluation.
Defined.

(** X11: the cell under a column does not depend on which other columns
    the schema has, nor on their order: two schemas that share a column
    give it the same cell. *)
Theorem cell_independent_of_schema (S S' : list string) (w : Widgets) (rt : Z)
    (index : float) (r r' : row) (c : string) :
  build_input_row S w rt index = Ok r ->
  build_input_row S' w rt index = Ok r' ->
  c ∈ S -> c ∈ S' ->
  row_get r c = row_get r' c.
Proof.
  intros (pt & sm & Hpt & _ & Hsm & _ & ->)%build_input_row_inv
         (pt' & sm' & Hpt' & _ & Hsm' & _ & ->)%build_input_row_inv HS HS'.
  rewrite !row_get_fmap, !decide_True by done.
  congruence.
Qed.

Lemma cell_independent_of_schema_witness :
  build_input_row ["beds"; "property_type_house"] demo_widgets 6 7.4
    = Ok [("beds", VInt 3); ("property_type_house", VInt 1)] /\
  build_input_row ["property_type_house"] demo_widgets 6 7.4
    = Ok [("property_type_house", VInt 1)] /\
  "property_type_house" ∈ ["beds"; "property_type_house"] /\
  "property_type_house" ∈ ["property_type_house"] /\
  row_get [("beds", VInt 3); ("property_type_house", VInt 1)] "property_type_house"
  = row_get [("property_type_house", VInt 1)] "property_type_house".
Proof.
  split; [by vm_compute |]. split; [by vm_compute |].
  split; [by_evaluation |]. split; [by_evaluation |].
  apply (cell_independent_of_schema ["beds"; "property_type_house"]
           ["property_type_house"] demo_widgets 6 7.4);
    [by vm_compute | by vm_compute | by_evaluation | by_evaluation].
Defined.

Lemma table_injective (f : family) (l l' c : string) :
  getitem (table f) l = Ok c -> getitem (table f) l' = Ok c -> l = l'.
Proof.
  intros H H'.
  pose proof (getitem_Ok_key _ _ _ H) as Hl.
  pose proof (getitem_Ok_key _ _ _ H') as Hl'.
  destruct f; cbn [table] in *;
    list_cases Hl; list_cases Hl'; vm_compute in H, H'; congruence.
Qed.

(** X12: a selection whose one-hot column is in the schema can be read
    back from the row: two requests that give the same row have the same
    selection in that family. *)
Theorem selection_recoverable (f : family) (S : list string) (w w' : Widgets)
    (rt rt' : Z) (index index' : float) (r : row) (sel : string) :
  build_input_row S w rt index = Ok r ->
  build_input_row S w' rt' index' = Ok r ->
  getitem (table f) (selection f w) = Ok sel -> sel ∈ S ->
  selection f w' = selection f w.
Proof.
  intros (pt & sm & Hpt & Hpt1 & Hsm & Hsm1 & ->)%build_input_row_inv
         (pt' & sm' & Hpt' & Hpt1' & Hsm' & Hsm1' & Heq)%build_input_row_inv
         Hsel HS.
  assert (cell w rt index pt sm sel = cell w' rt' index' pt' sm' sel) as Hcell.
  { apply (f_equal (fun r => row_get r sel)) in Heq.
    rewrite !row_get_fmap, !decide_True in Heq by done. congruence. }
  destruct f; cbn [table selection] in *.
  - assert (sel = pt) as -> by congruence.
    rewrite !cell_property_type in Hcell by done.
    rewrite decide_True in Hcell by done.
    destruct (decide (pt = pt')) as [<- | Hne]; [| done].
    by apply (table_injective PropertyType _ _ pt).
  - assert (sel = sm) as -> by congruence.
    rewrite !cell_sale_method in Hcell by done.
    rewrite decide_True in Hcell by done.
    destruct (decide (sm = sm')) as [<- | Hne]; [| done].
    by apply (table_injective SaleMethod _ _ sm).
Qed.

Lemma selection_recoverable_witness :
  build_input_row ["sale_method_auction"] demo_widgets 6 7.4
    = Ok [("sale_method_auction", VInt 1)] /\
  build_input_row ["sale_method_auction"]
    (with_property_type "Villa" demo_widgets) 9 1.5
    = Ok [("sale_method_auction", VInt 1)] /\
  getitem (table SaleMethod) (selection SaleMethod demo_widgets)
    = Ok "sale_method_auction" /\
  "sale_method_auction" ∈ ["sale_method_auction"] /\
  selection SaleMethod (with_property_type "Villa" demo_widgets)
  = selection SaleMethod demo_widgets.
Proof.
  split; [by vm_compute |]. split; [by vm_compute |].
  split; [reflexivity |]. split; [by_evaluation |].
  apply (selection_recoverable SaleMethod ["sale_method_auction"] demo_widgets
           (with_property_type "Villa" demo_widgets) 6 9 7.4 1.5
           [("sale_method_auction", VInt 1)] "sale_method_auction");
    [by vm_compute | by vm_compute | reflexivity | by_evaluation].
Defined.

Lemma notna_float (x : float) : nonneg x -> notna (VFloat x) = true.
Proof. intros Hx. unfold notna. by rewrite nonneg_not_nan. Qed.

Lemma notna_cell_iff (w : Widgets) (pt sm c : string) :
  widgets_ok w -> areas_ok w ->
  pt ∈ values PT_COLS -> sm ∈ values SM_COLS ->
  notna (cell w (rooms_total w)
           (inverse_distance_sum (nearest_supermarket w) (nearest_train w)
              (nearest_bus w) (nearest_park w)) pt sm c) = true
  <-> c ∈ rule_cols.
Proof.
  intros Hw [Hland Hcbd] Hpt Hsm.
  destruct (decide (c ∈ rule_cols)) as [Hc | Hc].
  - split; [done | intros _]. unfold rule_cols in Hc.
    apply elem_of_app in Hc as [Hc | Hc];
      [| apply elem_of_app in Hc as [Hc | Hc]].
    + pose proof (inverse_distance_sum_nonneg _ _ _ _
                    (ok_supermarket w Hw) (ok_train w Hw) (ok_bus w Hw)
                    (ok_park w Hw)) as Hindex.
      destruct Hw as [_ _ Hs Ht Hb Hp].
      list_cases Hc;
        (rewrite cell_outside_families by (done || by_evaluation));
        first [ reflexivity
              | exact (notna_float (land_size w) Hland)
              | exact (notna_float (distance_to_cbd w) Hcbd)
              | exact (notna_float (nearest_supermarket w) Hs)
              | exact (notna_float (nearest_train w) Ht)
              | exact (notna_float (nearest_bus w) Hb)
              | exact (notna_float (nearest_park w) Hp)
              | exact (notna_float _ Hindex) ].
    + by rewrite cell_property_type.
    + by rewrite cell_sale_method.
  - rewrite cell_unset by done. split; [done | by intros ?].
Qed.

(** X13: for widget values within their bounds, a cell of the row is NaN
    exactly when no population rule names its column: every populated
    column holds a number, so "missing" is never confused with a value. *)
Theorem nan_iff_no_rule (S : list string) (w : Widgets) :
  widgets_ok w -> areas_ok w ->
  exists r, build_row S w = Ok r /\
    forall c v, row_get r c = Some v -> (notna v = false <-> c ∉ rule_cols).
Proof.
  intros Hw Ha.
  destruct (build_row_cells S w Hw) as (pt & sm & _ & Hpt & _ & Hsm & ->).
  eexists. split; [done |].
  intros c v. rewrite row_get_fmap.
  destruct (decide (c ∈ S)); [| done]. intros [= <-].
  rewrite <- (notna_cell_iff w pt sm c) by done.
  by destruct (notna _).
Qed.

Lemma nan_iff_no_rule_witness :
  widgets_ok demo_widgets /\ areas_ok demo_widgets /\
  exists r, build_row ["beds"; "suburb_median"] demo_widgets = Ok r /\
    forall c v, row_get r c = Some v -> (notna v = false <-> c ∉ rule_cols).
Proof.
  split; [exact demo_widgets_ok |]. split; [by split |].
  apply (nan_iff_no_rule ["beds"; "suburb_median"] demo_widgets);
    [exact demo_widgets_ok | by split].
Defined.

(** X15: a selection touches only the columns of its own family: changing
    the property type (or the sale method) leaves every cell outside that
    family as it was. *)
Theorem selection_frame (f : family) (S : list string) (w : Widgets)
    (label : string) (rt : Z) (index : float) (r r' : row) (c : string) :
  build_input_row S w rt index = Ok r ->
  build_input_row S (with_selection f label w) rt index = Ok r' ->
  c ∉ values (table f) ->
  row_get r c = row_get r' c.
Proof.
  intros (pt & sm & Hpt & Hpt1 & Hsm & Hsm1 & ->)%build_input_row_inv
         (pt' & sm' & Hpt' & Hpt1' & Hsm' & Hsm1' & ->)%build_input_row_inv Hc.
  rewrite !row_get_fmap.
  destruct (decide (c ∈ S)); [| done]. f_equal.
  destruct f; cbn [table with_selection with_property_type with_sale_method
                   property_type sale_method] in *.
  - assert (sm' = sm) as -> by congruence.
    unfold cell.
    rewrite (decide_False (P := c = pt)) by (by intros ->).
    rewrite (decide_False (P := c = pt')) by (by intros ->).
    rewrite !(decide_False (P := c ∈ values PT_COLS)) by done. reflexivity.
  - assert (pt' = pt) as -> by congruence.
    unfold cell.
    rewrite (decide_False (P := c = sm)) by (by intros ->).
    rewrite (decide_False (P := c = sm')) by (by intros ->).
    rewrite !(decide_False (P := c ∈ values SM_COLS)) by done. reflexivity.
Qed.

Lemma selection_frame_witness :
  build_input_row ["beds"; "sale_method_auction"] demo_widgets 6 7.4
    = Ok [("beds", VInt 3); ("sale_method_auction", VInt 1)] /\
  build_input_row ["beds"; "sale_method_auction"]
    (with_selection SaleMethod "Private treaty" demo_widgets) 6 7.4
    = Ok [("beds", VInt 3); ("sale_method_auction", VInt 0)] /\
  ("beds" ∉ values (table SaleMethod)) /\
  row_get [("beds", VInt 3); ("sale_method_auction", VInt 1)] "beds"
  = row_get [("beds", VInt 3); ("sale_method_auction", VInt 0)] "beds".
Proof.
  split; [by vm_compute |]. split; [by vm_compute |]. split; [by_evaluation |].
  apply (selection_frame SaleMethod ["beds"; "sale_method_auction"] demo_widgets
           "Private treaty" 6 7.4);
    [by vm_compute | by vm_compute | by_evaluation].
Defined.

(** ** The "Predict price" handler *)

Section HandlerProperties.
Variable predict : row -> result (list float).
Variable format_price : float -> string.
Variable non_nan_fields : row -> row.

(** What a run of the handler does, case by case. *)
Lemma on_predict_cases (S : list string) (w : Widgets) (rt : Z) (index : float)
    (p : page) :
  on_predict predict format_price non_nan_fields S w rt index true p
  = match build_input_row S w rt index with
    | Raise e => (Raise e, p)
    | Ok X =>
        let called := {| rendered := rendered p;
                         predict_calls := predict_calls p ++ [X] |} in
        match predict X with
        | Raise e => (Raise e, called)
        | Ok [] => (Raise IndexError, called)
        | Ok (y :: _) =>
            (Ok tt,
             {| rendered :=
                  rendered p
                  ++ [Success ("Estimated price: **A$" ++ format_price y ++ "**");
                      Table (non_nan_fields X)];
                predict_calls := predict_calls p ++ [X] |})
        end
    end.
Proof.
  unfold on_predict, mbind, ui_bind, lift, pipe_predict, render.
  destruct (build_input_row S w rt index) as [X | e]; [| done].
  destruct (predict X) as [[| y ys] | e]; try done.
  cbn. by rewrite <- app_assoc.
Qed.


(** X17: a predictor that returns an empty batch makes the handler raise
    [IndexError]; nothing is shown. *)
Theorem empty_prediction_IndexError (S : list string) (w : Widgets) (rt : Z)
    (index : float) (X : row) (p : page) :
  build_input_row S w rt index = Ok X -> predict X = Ok [] ->
  on_predict predict format_price non_nan_fields S w rt index true p
  = (Raise IndexError,
     {| rendered := rendered p; predict_calls := predict_calls p ++ [X] |}).
Proof. intros HX Hy. by rewrite on_predict_cases, HX, Hy. Qed.

(** X18: when building the row raises, the handler raises the same error
    and the predictor is not called at all: the page is left as it was. *)
Theorem build_error_skips_predictor (S : list string) (w : Widgets) (rt : Z)
    (index : float) (e : exn) (p : page) :
  build_input_row S w rt index = Raise e ->
  on_predict predict format_price non_nan_fields S w rt index true p = (Raise e, p).
Proof. intros HX. by rewrite on_predict_cases, HX. Qed.

(** X19: an estimate on the page after a run was either there before, or
    is the formatted first result the predictor returned for the row built
    in this run: the handler never shows a number of its own. *)
Theorem estimate_only_if_predicted (S : list string) (w : Widgets) (rt : Z)
    (index : float) (clicked : bool) (p p' : page) (res : result unit)
    (body : string) :
  on_predict predict format_price non_nan_fields S w rt index clicked p = (res, p') ->
  Success body ∈ rendered p' ->
  Success body ∈ rendered p \/
  exists X y ys,
    clicked = true /\ build_input_row S w rt index = Ok X /\
    predict X = Ok (y :: ys) /\
    body = "Estimated price: **A$" ++ format_price y ++ "**".
Proof.
  destruct clicked; [| by intros [= <- <-]; left].
  rewrite on_predict_cases.
  destruct (build_input_row S w rt index) as [X | e]; [| by intros [= <- <-]; left].
  cbv zeta.
  destruct (predict X) as [[| y ys] | e] eqn:Hy;
    intros [= <- <-]; cbn [rendered]; try by left.
  rewrite elem_of_app. intros [Hold | Hnew]; [by left | right].
  apply elem_of_cons in Hnew as [[= ->] | Hnew].
  - by exists X, y, ys.
  - by apply list_elem_of_singleton in Hnew.
Qed.

(** X20: a run of the handler only appends to the page, calls the
    predictor at most once, and shows something only if it called it. *)
Theorem handler_appends (S : list string) (w : Widgets) (rt : Z)
    (index : float) (clicked : bool) (p p' : page) (res : result unit) :
  on_predict predict format_price non_nan_fields S w rt index clicked p = (res, p') ->
  exists (shown : list element) (calls : list row),
    rendered p' = (rendered p ++ shown)%list /\
    predict_calls p' = (predict_calls p ++ calls)%list /\
    (length calls <= 1)%nat /\ (calls = [] -> shown = []).
Proof.
  destruct clicked;
    [| intros [= <- <-]; exists [], []; rewrite !app_nil_r; repeat split; cbn; lia].
  rewrite on_predict_cases.
  destruct (build_input_row S w rt index) as [X | e];
    [| intros [= <- <-]; exists [], []; rewrite !app_nil_r; repeat split; cbn; lia].
  cbv zeta.
  destruct (predict X) as [[| y ys] | e]; intros [= <- <-];
    cbn [rendered predict_calls].
  - exists [], [X]. rewrite app_nil_r. repeat split; cbn; lia.
  - eexists _, [X]. repeat split; [cbn; lia | done].
  - exists [], [X]. rewrite app_nil_r. repeat split; cbn; lia.
Qed.
End HandlerProperties.


Lemma empty_prediction_IndexError_witness :
  build_input_row ["beds"] demo_widgets 6 7.4 = Ok [("beds", VInt 3)] /\
  (fun _ : row => Ok ([] : list float)) [("beds", VInt 3)] = Ok [] /\
  on_predict (fun _ => Ok []) (fun _ => "0") (fun X => X) ["beds"]
    demo_widgets 6 7.4 true {| rendered := []; predict_calls := [] |}
  = (Raise IndexError,
     {| rendered := []; predict_calls := [[("beds", VInt 3)]] |}).
Proof.
  split; [by vm_compute |]. split; [reflexivity |].
  apply (empty_prediction_IndexError (fun _ => Ok []) (fun _ => "0")
           (fun X => X) ["beds"]
           demo_widgets 6 7.4 [("beds", VInt 3)]
           {| rendered := []; predict_calls := [] |});
    [by vm_compute | reflexivity].
Defined.

Lemma build_error_skips_predictor_witness :
  build_input_row ["beds"] (with_property_type "Castle" demo_widgets) 6 7.4
    = Raise (KeyError "Castle") /\
  on_predict (fun _ => Ok [750000%float]) (fun _ => "750,000") (fun X => X)
    ["beds"] (with_property_type "Castle" demo_widgets) 6 7.4 true
    {| rendered := []; predict_calls := [] |}
  = (Raise (KeyError "Castle"), {| rendered := []; predict_calls := [] |}).
Proof.
  split; [by vm_compute |].
  apply (build_error_skips_predictor (fun _ => Ok [750000%float])
           (fun _ => "750,000") (fun X => X) ["beds"]
           (with_property_type "Castle" demo_widgets) 6 7.4
           (KeyError "Castle") {| rendered := []; predict_calls := [] |}).
  by vm_compute.
Defined.

Lemma estimate_only_if_predicted_witness :
  on_predict (fun _ => Ok [750000%float]) (fun _ => "750,000") (fun X => X)
    ["beds"] demo_widgets 6 7.4 true {| rendered := []; predict_calls := [] |}
  = (Ok tt,
     {| rendered := [Success "Estimated price: **A$750,000**";
                     Table [("beds", VInt 3)]];
        predict_calls := [[("beds", VInt 3)]] |}) /\
  Success "Estimated price: **A$750,000**"
    ∈ [Success "Estimated price: **A$750,000**"; Table [("beds", VInt 3)]] /\
  (Success "Estimated price: **A$750,000**" ∈ ([] : list element) \/
   exists X y ys,
     true = true /\ build_input_row ["beds"] demo_widgets 6 7.4 = Ok X /\
     (fun _ : row => Ok [750000%float]) X = Ok (y :: ys) /\
     "Estimated price: **A$750,000**"
     = "Estimated price: **A$" ++ (fun _ : float => "750,000") y ++ "**").
Proof.
  split; [by vm_compute |]. split; [left |].
  apply (estimate_only_if_predicted (fun _ => Ok [750000%float])
           (fun _ => "750,000") (fun X => X) ["beds"] demo_widgets 6 7.4 true
           {| rendered := []; predict_calls := [] |}
           {| rendered := [Success "Estimated price: **A$750,000**";
                           Table [("beds", VInt 3)]];
              predict_calls := [[("beds", VInt 3)]] |}
           (Ok tt) "Estimated price: **A$750,000**");
    [by vm_compute | left].
Defined.

Lemma handler_appends_witness :
  on_predict strict_predictor (fun _ => "0") (fun X => X) ["beds"]
    demo_widgets 6 7.4 true {| rendered := [Table []]; predict_calls := [] |}
  = (Raise (PredictorError "columns are missing"),
     {| rendered := [Table []]; predict_calls := [[("beds", VInt 3)]] |}) /\
  exists (shown : list element) (calls : list row),
    [Table []] = ([Table []] ++ shown)%list /\
    [[("beds", VInt 3)]] = ([] ++ calls)%list /\
    (length calls <= 1)%nat /\ (calls = [] -> shown = []).
Proof.
  split; [by vm_compute |].
  apply (handler_appends strict_predictor (fun _ => "0") (fun X => X) ["beds"]
           demo_widgets 6 7.4 true
           {| rendered := [Table []]; predict_calls := [] |}
           {| rendered := [Table []]; predict_calls := [[("beds", VInt 3)]] |}
           (Raise (PredictorError "columns are missing"))).
  by vm_compute.
Defined.
